(** * The [Model] contract of emo_classifier: artifact life cycle

    A shallow embedding of [src/emo_classifier/model.py].  The module holds
    one abstract class, [Model], whose concrete methods ([load],
    [_initialize_artifact_dir], [save]) orchestrate a file system, an
    output stream and the operations that concrete variants override.

    - The file system is a tree of [node]s addressed by [path]s; the
      [pathlib], [shutil] and [importlib.resources] calls of the source are
      functions on it, each with the exceptions Python raises.
    - Python code runs in [Py], a state-and-exception monad over [world].
    - A subclass body is a [ClassBody]; attribute lookup through the class
      hierarchy is [resolve], which falls back on the bodies written in the
      base class ([raise NotImplementedError]). *)

From Stdlib Require Import QArith.
From stdpp Require Import gmap strings list fin_maps.

Local Open Scope string_scope.
Local Open Scope list_scope.

(** ** Exceptions *)

(** The exception classes that the modelled calls can raise;
    [UserError] stands for any exception class of a variant's own
    code (for instance an unpickling error). *)
Inductive exn : Type :=
  | FileNotFoundError
  | FileExistsError
  | NotADirectoryError
  | IsADirectoryError
  | ModuleNotFoundError
  | NotImplementedError
  | TypeError
  | AttributeError
  | UserError (name : string).

(** ** File system *)

#[warnings="-register-all"]
Inductive node : Type :=
  | File (data : list Byte.byte)
  | Dir (entries : gmap string node).

(** A path is the list of its components below the root; [p / s] of
    [pathlib] appends one component. *)
Definition path : Type := list string.

Definition joinpath (p : path) (s : string) : path := p ++ [s].
Infix "</>" := joinpath (at level 40, left associativity).

(** [os.stat]: the node at [p], or the error of the failing step
    ([ENOENT] for a missing component, [ENOTDIR] when a component of the
    way is a regular file).  Symbolic links are not modelled. *)
Fixpoint stat (p : path) (n : node) {struct p} : exn + node :=
  match p with
  | [] => inr n
  | s :: p' =>
      match n with
      | Dir m => match m !! s with
                 | Some c => stat p' c
                 | None => inl FileNotFoundError
                 end
      | File _ => inl NotADirectoryError
      end
  end.

(** [put p v n] binds the entry at [p] to [v] ([None] removes it).  The
    parent of [p] must be a directory, which every caller below checks
    first; otherwise the tree is returned as it is. *)
Fixpoint put (p : path) (v : option node) (n : node) {struct p} : node :=
  match p, n with
  | [s], Dir m => Dir (partial_alter (λ _, v) s m)
  | s :: p', Dir m => Dir (alter (put p' v) s m)
  | _, _ => n
  end.

(** ** The world and the [Py] monad *)

Record world : Type := World {
  fs : node;
  stdout : list string
}.

Definition Py (A : Type) : Type := world → (exn + A) * world.

Definition ret {A} (a : A) : Py A := λ w, (inr a, w).
Definition raise {A} (e : exn) : Py A := λ w, (inl e, w).
Definition bind {A B} (c : Py A) (k : A → Py B) : Py B :=
  λ w, match c w with
       | (inr a, w') => k a w'
       | (inl e, w') => (inl e, w')
       end.

Declare Scope py_scope.
Delimit Scope py_scope with py.
Notation "'let*' x ':=' c 'in' k" := (bind c (λ x, k))
  (at level 10, x name, c at level 100, k at level 200) : py_scope.
Notation "c >> k" := (bind c (λ _, k))
  (at level 100, k at level 200, right associativity) : py_scope.
Local Open Scope py_scope.

(** [for x in xs: body x] *)
Fixpoint for_each {A} (xs : list A) (body : A → Py unit) : Py unit :=
  match xs with
  | [] => ret tt
  | x :: xs' => body x >> for_each xs' body
  end.

Definition get_fs : Py node := λ w, (inr (fs w), w).
Definition set_fs (n : node) : Py unit :=
  λ w, (inr tt, {| fs := n; stdout := stdout w |}).

(** [print(line)] *)
Definition print (line : string) : Py unit :=
  λ w, (inr tt, {| fs := fs w; stdout := stdout w ++ [line] |}).

(** ** [pathlib], [shutil], [importlib.resources] *)

(** [p.exists()] *)
Definition exists_ (p : path) : Py bool :=
  let* n := get_fs in
  ret (match stat p n with inr _ => true | inl _ => false end).

(** [p.is_dir()] *)
Definition is_dir (p : path) : Py bool :=
  let* n := get_fs in
  ret (match stat p n with inr (Dir _) => true | _ => false end).

(** [p.iterdir()]: the children of a directory, as paths.  The listing is
    taken when the iteration starts; its order is the one of the map. *)
Definition iterdir (p : path) : Py (list path) :=
  let* n := get_fs in
  match stat p n with
  | inr (Dir m) => ret (map (λ kv, p </> kv.1) (map_to_list m))
  | inr (File _) => raise NotADirectoryError
  | inl e => raise e
  end.

(** [p.unlink()] *)
Definition unlink (p : path) : Py unit :=
  let* n := get_fs in
  match stat p n with
  | inr (File _) => set_fs (put p None n)
  | inr (Dir _) => raise IsADirectoryError
  | inl e => raise e
  end.

(** [shutil.rmtree(p)] *)
Definition rmtree (p : path) : Py unit :=
  let* n := get_fs in
  match stat p n with
  | inr (Dir _) => set_fs (put p None n)
  | inr (File _) => raise NotADirectoryError
  | inl e => raise e
  end.

(** The directory that must hold a new entry at [p]. *)
Definition parent (p : path) : path := removelast p.

Definition create (p : path) (v : node) : Py unit :=
  let* n := get_fs in
  match stat (parent p) n with
  | inr (Dir _) => set_fs (put p (Some v) n)
  | inr (File _) => raise NotADirectoryError
  | inl e => raise e
  end.

(** [p.mkdir()], with its defaults [parents=False, exist_ok=False] *)
Definition mkdir (p : path) : Py unit :=
  let* n := get_fs in
  match stat p n with
  | inr _ => raise FileExistsError
  | inl _ => create p (Dir ∅)
  end.

(** [p.touch()]: an existing entry only has its times updated, which the
    model does not record; otherwise an empty file is created. *)
Definition touch (p : path) : Py unit :=
  let* n := get_fs in
  match stat p n with
  | inr _ => ret tt
  | inl _ => create p (File [])
  end.

(** The absolute path as [print] shows it. *)
Definition path_str (p : path) : string :=
  match p with
  | [] => "/"
  | _ => String.concat "" (map (λ s, "/" +:+ s) p)
  end.

(** ** The class [Model] *)

(** [BinaryIO]: a binary stream positioned at its start is the sequence of
    bytes still to be read. *)
Definition BinaryIO : Type := list Byte.byte.

(** The types that [model.py] imports ([Comment], [Prediction],
    [Thresholds]) or names in annotations ([Union[pd.Series, np.ndarray]]
    and [np.ndarray]); the module never looks inside them. *)
Record Api : Type := {
  Comment : Type;
  Prediction : Type;
  Thresholds : Type;
  Batch : Type;
  ndarray : Type
}.

(** The data attributes that the body of [class Model] binds. *)
Record ModelNamespace : Type := {
  Model_artifact_file_name : string;
  Model_emotions : list string
}.

(** Running the class statement: [artifact_file_name = "model.model"] and
    [emotions = load_emotions()], the loader being any computation. *)
Definition class_Model (load_emotions : Py (list string)) : Py ModelNamespace :=
  let artifact_file_name := "model.model" in
  let* emotions := load_emotions in
  ret {| Model_artifact_file_name := artifact_file_name;
         Model_emotions := emotions |}.

(** A property object, [property(fget, fset)], on instances of state [M]. *)
Record property (api : Api) (M : Type) : Type := Property {
  fget : option (M → Py (Thresholds api));
  fset : option (M → Thresholds api → Py M)
}.
Arguments Property {api M} _ _.
Arguments fget {api M} _.
Arguments fset {api M} _.

(** The body of a subclass of [Model] whose instances have state [M]: the
    attributes it binds itself.  [None] is an attribute the body does not
    mention, which is then looked up in [Model].  [type_name] gives
    [type(model).__name__] for the objects that [M] stands for. *)
Record Variant (api : Api) (M : Type) : Type := {
  type_name : M → string;
  v_artifact_file_name : option string;
  v_load_artifact_file : option (BinaryIO → Py M);
  v_save_artifact_file : option (M → path → Py unit);
  v_thresholds : option (property api M);
  v_predict : option (M → Comment api → Py (Prediction api));
  v_predict_proba : option (M → Batch api → Py (ndarray api))
}.
Arguments type_name {api M} _ _.
Arguments v_artifact_file_name {api M} _.
Arguments v_load_artifact_file {api M} _.
Arguments v_save_artifact_file {api M} _.
Arguments v_thresholds {api M} _.
Arguments v_predict {api M} _.
Arguments v_predict_proba {api M} _.

Section Model.

(** [ARTIFACT_DIR] is imported from the package's [__init__]; its value is
    left open. *)
Variable ARTIFACT_DIR : path.

(** The class object [Model] that the class statement produced. *)
Variable Model : ModelNamespace.

Context {api : Api} {M : Type} (cls : Variant api M).

(** Modelled from the spec: the package [emo_classifier.artifact], whose
    [__init__.py] is not part of this module, is the directory
    [ARTIFACT_DIR] (section 6: the artifact directory holds "a marker file
    making the directory resource-loadable"). *)
Definition find_package (package : string) : option path :=
  if decide (package = "emo_classifier.artifact") then Some ARTIFACT_DIR
  else None.

(** [resources.open_binary(package, resource)].  The package must be a
    directory holding the marker [__init__.py]; the resource must be a
    regular file directly inside it. *)
Definition open_binary (package resource : string) : Py BinaryIO :=
  let* n := get_fs in
  match find_package package with
  | None => raise ModuleNotFoundError
  | Some d =>
      match stat d n with
      | inr (Dir m) =>
          match m !! "__init__.py", m !! resource with
          | Some (File _), Some (File data) => ret data
          | Some (File _), Some (Dir _) => raise IsADirectoryError
          | _, _ => raise FileNotFoundError
          end
      | _ => raise ModuleNotFoundError
      end
  end.

(** Attribute lookup: the subclass body first, then [Model]. *)
Definition artifact_file_name : string :=
  default (Model_artifact_file_name Model) (v_artifact_file_name cls).

Definition emotions (self : M) : list string := Model_emotions Model.

(** The abstract operations.  Without an override the body written in
    [Model] runs: [raise NotImplementedError]. *)
Definition load_artifact_file (fp : BinaryIO) : Py M :=
  match v_load_artifact_file cls with
  | Some f => f fp
  | None => raise NotImplementedError
  end.

Definition save_artifact_file (self : M) (p : path) : Py unit :=
  match v_save_artifact_file cls with
  | Some f => f self p
  | None => raise NotImplementedError
  end.

(** [self.thresholds] *)
Definition thresholds (self : M) : Py (Thresholds api) :=
  match v_thresholds cls with
  | Some p => match fget p with
              | Some g => g self
              | None => raise AttributeError
              end
  | None => raise NotImplementedError
  end.

(** [self.thresholds = t]; the result is the state of [self] after the
    assignment. *)
Definition set_thresholds (self : M) (t : Thresholds api) : Py M :=
  match v_thresholds cls with
  | Some p => match fset p with
              | Some s => s self t
              | None => raise AttributeError
              end
  | None => raise NotImplementedError
  end.

Definition predict (self : M) (comment : Comment api) : Py (Prediction api) :=
  match v_predict cls with
  | Some f => f self comment
  | None => raise NotImplementedError
  end.

Definition predict_proba (self : M) (X : Batch api) : Py (ndarray api) :=
  match v_predict_proba cls with
  | Some f => f self X
  | None => raise NotImplementedError
  end.

(** [Model.load] *)
Definition load : Py M :=
  let* fp := open_binary "emo_classifier.artifact" artifact_file_name in
  let* model := load_artifact_file fp in
  print ("LOADED: " +:+ type_name cls model +:+ " instance") >>
  ret model.

(** [Model._initialize_artifact_dir] *)
Definition _initialize_artifact_dir (self : M) : Py unit :=
  let* e := exists_ ARTIFACT_DIR in
  (if e : bool then
     let* files := iterdir ARTIFACT_DIR in
     for_each files (λ file,
       let* d := is_dir file in
       if d : bool then rmtree file else unlink file)
   else mkdir ARTIFACT_DIR) >>
  touch (ARTIFACT_DIR </> "__init__.py").

(** [Model.save] *)
Definition save (self : M) : Py unit :=
  _initialize_artifact_dir self >>
  let file_path := ARTIFACT_DIR </> artifact_file_name in
  save_artifact_file self file_path >>
  print ("SAVED: " +:+ path_str file_path).

(** *** Abstract methods *)

(** The names that [Model] decorates with [@abstractmethod]; the getter and
    the setter of [thresholds] are one attribute, a property. *)
Inductive abstract_name : Type :=
  | n_load_artifact_file
  | n_save_artifact_file
  | n_thresholds
  | n_predict
  | n_predict_proba.

Definition Model_abstractmethods : list abstract_name :=
  [n_load_artifact_file; n_save_artifact_file; n_thresholds; n_predict;
   n_predict_proba].

(** Whether the subclass body binds the name. *)
Definition overrides (n : abstract_name) : bool :=
  match n with
  | n_load_artifact_file => bool_decide (is_Some (v_load_artifact_file cls))
  | n_save_artifact_file => bool_decide (is_Some (v_save_artifact_file cls))
  | n_thresholds => bool_decide (is_Some (v_thresholds cls))
  | n_predict => bool_decide (is_Some (v_predict cls))
  | n_predict_proba => bool_decide (is_Some (v_predict_proba cls))
  end.

(** [cls.__abstractmethods__], as [ABCMeta] computes it for a subclass:
    the abstract names of the base that the subclass does not rebind. *)
Definition __abstractmethods__ : list abstract_name :=
  filter (λ n, overrides n = false) Model_abstractmethods.

(** [cls(...)]: [object.__new__] refuses a class that still has abstract
    methods, before [__init__] (here [init], which builds the state) runs. *)
Definition new (init : Py M) : Py M :=
  match __abstractmethods__ with
  | [] => init
  | _ :: _ => raise TypeError
  end.

(** The operations of the contract, as callers use them. *)
Inductive operation : Type :=
  | op_load_artifact_file
  | op_save_artifact_file
  | op_thresholds_get
  | op_thresholds_set
  | op_predict
  | op_predict_proba.

(** Whether the subclass supplies code for the operation. *)
Definition implements (o : operation) : bool :=
  match o with
  | op_load_artifact_file => bool_decide (is_Some (v_load_artifact_file cls))
  | op_save_artifact_file => bool_decide (is_Some (v_save_artifact_file cls))
  | op_thresholds_get => bool_decide (is_Some (v_thresholds cls ≫= fget))
  | op_thresholds_set => bool_decide (is_Some (v_thresholds cls ≫= fset))
  | op_predict => bool_decide (is_Some (v_predict cls))
  | op_predict_proba => bool_decide (is_Some (v_predict_proba cls))
  end.

End Model.

Arguments Model_abstractmethods : simpl never.

(** ** Thresholding *)

(** Modelled from the spec: [predict] is abstract in [model.py] and the
    concrete variants are not part of this module.  Section 4.1 has
    [predict] assert a label "based on comparing that label's estimated
    probability against its threshold", the probabilities being one row of
    [predict_proba], aligned with the label list.  The spec does not say
    whether a probability equal to its threshold asserts the label:
    [strict] chooses between [>] and [>=].  A label without a threshold is
    not asserted. *)
Definition exceeds (strict : bool) (proba threshold : Q) : bool :=
  if strict then negb (Qle_bool proba threshold) else Qle_bool threshold proba.

Definition is_asserted (strict : bool) (thr : gmap string Q)
    (lp : string * Q) : bool :=
  match thr !! lp.1 with
  | Some t => exceeds strict lp.2 t
  | None => false
  end.

Definition asserted_labels (strict : bool) (labels : list string)
    (thr : gmap string Q) (row : list Q) : list string :=
  map fst (List.filter (is_asserted strict thr) (combine labels row)).

(** ** Conforming variants *)

(** [p.write_bytes(data)]: create or truncate the file at [p]. *)
Definition write_bytes (p : path) (data : list Byte.byte) : Py unit :=
  let* n := get_fs in
  match stat p n with
  | inr (File _) => set_fs (put p (Some (File data)) n)
  | inr (Dir _) => raise IsADirectoryError
  | inl _ => create p (File data)
  end.

(** The directory entries of [d], when [d] is a directory. *)
Definition listing (d : path) (w : world) : option (gmap string node) :=
  match stat d (fs w) with
  | inr (Dir m) => Some m
  | _ => None
  end.

(** What the artifact directory holds once it is initialised. *)
Definition marker_only : gmap string node := {[ "__init__.py" := File [] ]}.

(** The states in which the initialisation can run: the directory is
    there, or it is missing and the directory that must hold it is there. *)
Definition initializable (d : path) (w : world) : Prop :=
  match stat d (fs w) with
  | inr (Dir _) => True
  | inr (File _) => False
  | inl _ => is_Some (listing (parent d) w)
  end.

(** The resource [name] of the package directory [d] has contents [data]. *)
Definition resource_at (d : path) (name : string) (w : world)
    (data : BinaryIO) : Prop :=
  ∃ m marker, listing d w = Some m
            ∧ m !! "__init__.py" = Some (File marker)
            ∧ m !! name = Some (File data).

(** The failures by which the resource lookup reports that what it was asked
    for is not there (the spec's ArtifactNotFoundError). *)
Definition artifact_not_found (e : exn) : bool :=
  match e with
  | FileNotFoundError | ModuleNotFoundError => true
  | _ => false
  end.

Section Contract.
Variable ARTIFACT_DIR : path.
Variable Model : ModelNamespace.
Context {api : Api} {M : Type} (cls : Variant api M).

(** Section 4.1 on [save_artifact_file]: "must be self-contained under that
    single path".  Run on [d / name] inside a directory [d], it leaves [d] a
    directory and touches no entry of [d] but [name], whether it returns or
    raises. *)
Definition self_contained : Prop :=
  ∀ (self : M) (d : path) (name : string) (w w' : world) r m,
    save_artifact_file cls self (d </> name) w = (r, w') →
    listing d w = Some m →
    ∃ m', listing d w' = Some m' ∧ ∀ k, k ≠ name → m' !! k = m !! k.

(** ... and when it returns, there is an artifact at the path. *)
Definition writes_artifact : Prop :=
  ∀ (self : M) (d : path) (name : string) (w w' : world) m,
    save_artifact_file cls self (d </> name) w = (inr tt, w') →
    listing d w = Some m →
    ∃ m', listing d w' = Some m' ∧ is_Some (m' !! name).

(** [load_artifact_file] is the exact inverse of [save_artifact_file]: the
    latter writes [dumps self] as one file at the path it is given, and
    the former rebuilds [self] from those bytes. *)
Definition exact_inverse (dumps : M → list Byte.byte) : Prop :=
  (∀ self p, save_artifact_file cls self p = write_bytes p (dumps self)) ∧
  (∀ self w, load_artifact_file cls (dumps self) w = (inr self, w)).

(** The reading of section 6 that every class keeps its file in the
    directory: after [a] and then [b] were saved, both artifacts are
    there. *)
Definition one_file_per_class {M2 : Type} (cls2 : Variant api M2)
    (a : M) (b : M2) (w : world) : Prop :=
  ∀ w1 w2,
    save ARTIFACT_DIR Model cls a w = (inr tt, w1) →
    save ARTIFACT_DIR Model cls2 b w1 = (inr tt, w2) →
    ∃ m, listing ARTIFACT_DIR w2 = Some m
       ∧ is_Some (m !! artifact_file_name Model cls)
       ∧ is_Some (m !! artifact_file_name Model cls2).

(** The reading of section 7 that a missing operation is always caught
    when an instance is built. *)
Definition caught_at_construction : Prop :=
  ∀ o, implements cls o = false →
    ∀ (init : Py M) (w : world), new cls init w = (inl TypeError, w).

End Contract.

(** ** Sample classes and worlds *)

Module Sample.

Definition api : Api := {|
  Comment := string;
  Prediction := list string;
  Thresholds := Byte.byte;
  Batch := list string;
  ndarray := list (list Q)
|}.

Definition ARTIFACT_DIR : path := ["emo_classifier"; "artifact"].

Definition Model : ModelNamespace :=
  {| Model_artifact_file_name := "model.model";
     Model_emotions := ["joy"; "anger"] |}.

Definition unit_interval (b : Byte.byte) : Q :=
  (inject_Z (Z.of_N (Byte.to_N b)) / 255)%Q.

(** The learned state of the sample variants: one cutoff shared by all
    labels and one weight per label, each a byte read as a fraction of
    255.  The artifact is the cutoff followed by the weights. *)
Record state : Type := State {
  cutoff : Byte.byte;
  weights : list Byte.byte
}.

Definition dumps (self : state) : list Byte.byte :=
  cutoff self :: weights self.

Definition loads (fp : BinaryIO) : Py state :=
  match fp with
  | c :: ws => ret (State c ws)
  | [] => raise (UserError "UnpicklingError")
  end.

Definition score (self : state) (text : string) : list Q :=
  map unit_interval (weights self).

Definition cutoffs (self : state) : gmap string Q :=
  list_to_map (map (λ l, (l, unit_interval (cutoff self)))
                   (Model_emotions Model)).

Definition Pickled (name : option string) : Variant api state := {|
  type_name := λ _, "Pickled";
  v_artifact_file_name := name;
  v_load_artifact_file := Some loads;
  v_save_artifact_file := Some (λ self p, write_bytes p (dumps self));
  v_thresholds :=
    Some (@Property api state
            (Some (λ self, ret (cutoff self)))
            (Some (λ self t, ret (State t (weights self)))));
  v_predict :=
    Some (λ self c, ret (asserted_labels true (Model_emotions Model)
                           (cutoffs self) (score self c)));
  v_predict_proba := Some (λ self X, ret (map (score self) X))
|}.

(** The same, but its property has a getter only. *)
Definition ReadOnly : Variant api state := {|
  type_name := λ _, "ReadOnly";
  v_artifact_file_name := None;
  v_load_artifact_file := v_load_artifact_file (Pickled None);
  v_save_artifact_file := v_save_artifact_file (Pickled None);
  v_thresholds :=
    Some (@Property api state (Some (λ self, ret (cutoff self))) None);
  v_predict := v_predict (Pickled None);
  v_predict_proba := v_predict_proba (Pickled None)
|}.

(** A variant that forgets [predict]. *)
Definition NoPredict : Variant api state := {|
  type_name := λ _, "NoPredict";
  v_artifact_file_name := None;
  v_load_artifact_file := v_load_artifact_file (Pickled None);
  v_save_artifact_file := v_save_artifact_file (Pickled None);
  v_thresholds := v_thresholds (Pickled None);
  v_predict := None;
  v_predict_proba := v_predict_proba (Pickled None)
|}.

(** A variant whose writer fails after a partial write, and whose reader
    rejects every stream. *)
Definition Failing : Variant api state := {|
  type_name := λ _, "Failing";
  v_artifact_file_name := None;
  v_load_artifact_file := Some (λ _, raise (UserError "UnpicklingError"));
  v_save_artifact_file :=
    Some (λ self p, write_bytes p (take 1 (dumps self)) >>
                    raise (UserError "OSError"));
  v_thresholds := v_thresholds (Pickled None);
  v_predict := v_predict (Pickled None);
  v_predict_proba := v_predict_proba (Pickled None)
|}.

Definition m0 : state := State Byte.x80 [Byte.xe6; Byte.x33].

(** A tree in which the artifact directory holds unrelated entries. *)
Definition cluttered : world := {|
  fs := Dir {[ "emo_classifier" :=
          Dir {[ "artifact" :=
            Dir (<[ "notes.txt" := File [Byte.x68] ]>
                 {[ "cache" := Dir {[ "a" := File [] ]} ]}) ]} ]};
  stdout := []
|}.

(** A tree in which the artifact directory does not exist yet. *)
Definition fresh : world := {|
  fs := Dir {[ "emo_classifier" := Dir ∅ ]};
  stdout := []
|}.

(** A label loader that reads its answer off the world. *)
Definition load_emotions : Py (list string) :=
  λ w, (inr ("joy" :: "anger" :: stdout w), w).

(** A subclass with an empty body. *)
Definition Bare : Variant api state := {|
  type_name := λ _, "Bare";
  v_artifact_file_name := None;
  v_load_artifact_file := None;
  v_save_artifact_file := None;
  v_thresholds := None;
  v_predict := None;
  v_predict_proba := None
|}.

(** The worlds that [save] leaves behind. *)
Definition saved : world :=
  (save ARTIFACT_DIR Model (Pickled None) m0 cluttered).2.

Definition initialised : world :=
  (_initialize_artifact_dir ARTIFACT_DIR m0 cluttered).2.

Definition half_saved : world :=
  (save ARTIFACT_DIR Model Failing m0 cluttered).2.

(** Two classes with file names of their own, saved one after the other. *)
Definition ClassA : Variant api state := Pickled (Some "a.model").
Definition ClassB : Variant api state := Pickled (Some "b.model").

Definition saved_a : world := (save ARTIFACT_DIR Model ClassA m0 fresh).2.
Definition saved_ab : world := (save ARTIFACT_DIR Model ClassB m0 saved_a).2.

(** The scenario of section 8. *)
Definition even_thresholds : gmap string Q :=
  <[ "joy" := 1 # 2 ]> {[ "anger" := 1 # 2 ]}.

Definition row : list Q := [9 # 10; 2 # 10].

End Sample.

(** ** Notions for the further properties *)

(** A path that is neither inside [d] nor on the way to it. *)
Definition outside (d q : path) : Prop :=
  ¬ d `prefix_of` q ∧ ¬ q `prefix_of` d.

(** A writer that prints nothing. *)
Definition silent_writer {api : Api} {M : Type} (cls : Variant api M) : Prop :=
  ∀ (self : M) (p : path) (w w' : world) r,
    save_artifact_file cls self p w = (r, w') → stdout w' = stdout w.

(** Every run of [c], returning or raising, relates the world it started in
    to the world it ended in by [R]. *)
Definition stays_in (R : world → world → Prop) {A} (c : Py A) : Prop :=
  ∀ w r w', c w = (r, w') → R w w'.

(** Nothing changes at [q], and nothing is printed. *)
Definition untouched (q : path) (w w' : world) : Prop :=
  stat q (fs w') = stat q (fs w) ∧ stdout w' = stdout w.

Module Places.

(** A tree in which the artifact directory is a regular file. *)
Definition blocked : world := {|
  fs := Dir {[ "emo_classifier" := Dir {[ "artifact" := File [Byte.x2a] ]} ]};
  stdout := []
|}.

(** A tree without the package directory. *)
Definition orphan : world := {| fs := Dir ∅; stdout := [] |}.

(** A tree in which the package has a module beside a cluttered artifact
    directory. *)
Definition project : world := {|
  fs := Dir {[ "emo_classifier" :=
          Dir (<[ "api.py" := File [Byte.x23] ]>
               {[ "artifact" :=
                    Dir {[ "old" := Dir {[ "weights" := File [Byte.x01] ]} ]} ]}) ]};
  stdout := ["training done"]
|}.

Definition api_py : path := ["emo_classifier"; "api.py"].

(** [project] once its artifact directory is initialised. *)
Definition cleared : world :=
  (_initialize_artifact_dir Sample.ARTIFACT_DIR Sample.m0 project).2.

End Places.

(** * Proofs *)

Ltac py_unfold :=
  unfold bind, ret, raise, get_fs, set_fs, print in *; simpl in *.

Lemma stat_child (d : path) (s : string) (n : node) (m : gmap string node) :
  stat d n = inr (Dir m) →
  stat (d </> s) n =
    match m !! s with Some c => inr c | None => inl FileNotFoundError end.
Proof.
  revert n. induction d as [|a d IH]; intros n H; simpl in *.
  - inversion H; subst. by destruct (m !! s).
  - destruct n as [|m0]; [done|]. destruct (m0 !! a) as [c|]; [|done].
    by apply IH.
Qed.

Lemma put_cons (a : string) (d : path) (s : string) v (m0 : gmap string node) :
  put (a :: d </> s) v (Dir m0) = Dir (alter (put (d </> s) v) a m0).
Proof. unfold joinpath. by destruct d. Qed.

Lemma stat_put (d : path) (s : string) v (n : node) (m : gmap string node) :
  stat d n = inr (Dir m) →
  stat d (put (d </> s) v n) = inr (Dir (partial_alter (λ _, v) s m)).
Proof.
  revert n. induction d as [|a d IH]; intros n H.
  - simpl in H. inversion H; subst. done.
  - simpl in H. destruct n as [|m0]; [done|].
    destruct (m0 !! a) as [c|] eqn:Ha; [|done].
    change ((a :: d) </> s) with (a :: d </> s).
    rewrite put_cons. simpl. rewrite lookup_alter_eq, Ha. simpl.
    by apply IH.
Qed.

Lemma listing_stat d w m : listing d w = Some m ↔ stat d (fs w) = inr (Dir m).
Proof.
  unfold listing. destruct (stat d (fs w)) as [e|[b|m']]; naive_solver.
Qed.


Lemma bind_ok {A B} (c : Py A) (k : A → Py B) (w w1 : world) (a : A) :
  c w = (inr a, w1) → bind c k w = k a w1.
Proof. unfold bind. by intros ->. Qed.

Lemma bind_err {A B} (c : Py A) (k : A → Py B) (w w1 : world) (e : exn) :
  c w = (inl e, w1) → bind c k w = (inl e, w1).
Proof. unfold bind. by intros ->. Qed.

Lemma bind_inv {A B} (c : Py A) (k : A → Py B) (w w2 : world) r :
  bind c k w = (r, w2) →
  (∃ e, c w = (inl e, w2) ∧ r = inl e)
  ∨ (∃ a w1, c w = (inr a, w1) ∧ k a w1 = (r, w2)).
Proof.
  unfold bind. destruct (c w) as [[e|a] w1].
  - intros [= <- <-]. left. eauto.
  - right. eauto.
Qed.

Lemma bind_inv_ok {A B} (c : Py A) (k : A → Py B) (w w2 : world) (b : B) :
  bind c k w = (inr b, w2) →
  ∃ a w1, c w = (inr a, w1) ∧ k a w1 = (inr b, w2).
Proof.
  unfold bind. destruct (c w) as [[e|a] w1]; [done|]. eauto.
Qed.

(** One iteration of the clearing loop *)
Lemma clear_step (d : path) (k : string) (w : world) (m : gmap string node) :
  listing d w = Some m → is_Some (m !! k) →
  ∃ w', (let* isd := is_dir (d </> k) in
         if isd : bool then rmtree (d </> k) else unlink (d </> k)) w
        = (inr tt, w')
      ∧ listing d w' = Some (delete k m)
      ∧ stdout w' = stdout w.
Proof.
  intros Hd [c Hc]. apply listing_stat in Hd.
  pose proof (stat_child d k _ _ Hd) as Hk. rewrite Hc in Hk.
  exists {| fs := put (d </> k) None (fs w); stdout := stdout w |}.
  split; [|split; [|done]].
  - unfold is_dir, rmtree, unlink. py_unfold. rewrite Hk.
    destruct c; simpl; by rewrite Hk.
  - apply listing_stat. simpl. by apply stat_put.
Qed.

Lemma clear_loop (d : path) (l : list (string * node)) :
  ∀ (w : world) (m : gmap string node),
    listing d w = Some m →
    NoDup l.*1 →
    (∀ k, k ∈ l.*1 → is_Some (m !! k)) →
    ∃ w' m',
      for_each (map (λ kv, d </> kv.1) l)
        (λ file, let* isd := is_dir file in
                 if isd : bool then rmtree file else unlink file) w
      = (inr tt, w')
      ∧ listing d w' = Some m'
      ∧ (∀ k, m' !! k = if decide (k ∈ l.*1) then None else m !! k)
      ∧ stdout w' = stdout w.
Proof.
  induction l as [|[k x] l IH]; intros w m Hd Hnd Hin.
  - exists w, m. repeat split; try done.
  - simpl in Hnd. apply NoDup_cons in Hnd as [Hk Hnd].
    destruct (clear_step d k w m Hd) as (w1 & Hrun & Hd1 & Hout1).
    { apply Hin. simpl. left. }
    destruct (IH w1 (delete k m) Hd1 Hnd) as (w' & m' & Hloop & Hd' & Hm' & Hout').
    { intros j Hj. rewrite lookup_delete_ne by (intros ->; done).
      apply Hin. simpl. by right. }
    exists w', m'. split; [|split; [done|split]].
    + simpl. by rewrite (bind_ok _ _ _ _ _ Hrun).
    + intros j. rewrite Hm', lookup_delete.
      assert (Hiff : j ∈ ((k, x) :: l).*1 ↔ j = k ∨ j ∈ l.*1).
      { rewrite fmap_cons. simpl. apply elem_of_cons. }
      destruct (decide (j ∈ ((k, x) :: l).*1)) as [Hj|Hj];
        rewrite Hiff in Hj;
        destruct (decide (j ∈ l.*1)) as [Hj'|Hj'];
        destruct (decide (k = j)) as [Hkj|Hkj]; try done.
      all: exfalso; intuition congruence.
    + congruence.
Qed.

Lemma clear_all (d : path) (w : world) (m : gmap string node) :
  listing d w = Some m →
  ∃ w',
    (let* files := iterdir d in
     for_each files
       (λ file, let* isd := is_dir file in
                if isd : bool then rmtree file else unlink file)) w
    = (inr tt, w')
    ∧ listing d w' = Some ∅
    ∧ stdout w' = stdout w.
Proof.
  intros Hd.
  destruct (clear_loop d (map_to_list m) w m Hd) as (w' & m' & Hrun & Hd' & Hm' & Hout).
  { apply NoDup_fst_map_to_list. }
  { intros k Hk. apply list_elem_of_fmap in Hk as [[k' x] [-> Hx]].
    apply elem_of_map_to_list in Hx. eauto. }
  exists w'. split; [|split; [|done]].
  - apply listing_stat in Hd. unfold iterdir. py_unfold.
    rewrite Hd. done.
  - rewrite Hd'. f_equal. apply map_empty. intros k. rewrite Hm'.
    case_decide as Hk; [done|].
    destruct (m !! k) as [x|] eqn:Hx; [|done].
    exfalso. apply Hk. apply list_elem_of_fmap. exists (k, x).
    split; [done|]. by apply elem_of_map_to_list.
Qed.


Lemma parent_joinpath (d : path) (s : string) : parent (d </> s) = d.
Proof. apply removelast_last. Qed.

Lemma path_split (p : path) : p ≠ [] → ∃ d s, p = d </> s.
Proof.
  intros Hp. exists (removelast p), (List.last p "").
  by apply app_removelast_last.
Qed.

Lemma stat_put_child (d : path) (s : string) v (n : node) (m : gmap string node) :
  stat d n = inr (Dir m) →
  stat (d </> s) (put (d </> s) v n) =
    match v with Some c => inr c | None => inl FileNotFoundError end.
Proof.
  intros H. rewrite (stat_child d s _ _ (stat_put d s v n m H)).
  by rewrite lookup_partial_alter_eq.
Qed.

Lemma create_spec (d : path) (s : string) (v : node) (w : world)
    (m : gmap string node) :
  listing d w = Some m →
  create (d </> s) v w
  = (inr tt, {| fs := put (d </> s) (Some v) (fs w); stdout := stdout w |}).
Proof.
  intros Hd. apply listing_stat in Hd.
  unfold create. py_unfold. by rewrite parent_joinpath, Hd.
Qed.

Lemma touch_new (d : path) (s : string) (w : world) (m : gmap string node) :
  listing d w = Some m → m !! s = None →
  ∃ w', touch (d </> s) w = (inr tt, w')
      ∧ listing d w' = Some (<[s := File []]> m)
      ∧ stdout w' = stdout w.
Proof.
  intros Hd Hs.
  exists {| fs := put (d </> s) (Some (File [])) (fs w); stdout := stdout w |}.
  split; [|split; [|done]].
  - unfold touch. rewrite (bind_ok _ _ _ _ _ (eq_refl : get_fs w = (inr (fs w), w))).
    apply listing_stat in Hd as Hd'.
    rewrite (stat_child d s _ _ Hd'), Hs. by eapply create_spec.
  - apply listing_stat. simpl. apply listing_stat in Hd. by apply stat_put.
Qed.

Lemma mkdir_new (p : path) (w : world) (e : exn) (pm : gmap string node) :
  stat p (fs w) = inl e → listing (parent p) w = Some pm →
  ∃ w', mkdir p w = (inr tt, w')
      ∧ listing p w' = Some ∅
      ∧ stdout w' = stdout w.
Proof.
  intros Hp Hpar.
  destruct (path_split p) as (d & s & ->).
  { intros ->. done. }
  rewrite parent_joinpath in Hpar.
  exists {| fs := put (d </> s) (Some (Dir ∅)) (fs w); stdout := stdout w |}.
  split; [|split; [|done]].
  - unfold mkdir. rewrite (bind_ok _ _ _ _ _ (eq_refl : get_fs w = (inr (fs w), w))).
    rewrite Hp. by eapply create_spec.
  - apply listing_stat. simpl. apply listing_stat in Hpar.
    by rewrite (stat_put_child d s _ _ _ Hpar).
Qed.

Lemma exists_true (p : path) (w : world) (n : node) :
  stat p (fs w) = inr n → exists_ p w = (inr true, w).
Proof. intros H. unfold exists_. py_unfold. by rewrite H. Qed.

Lemma exists_false (p : path) (w : world) (e : exn) :
  stat p (fs w) = inl e → exists_ p w = (inr false, w).
Proof. intros H. unfold exists_. py_unfold. by rewrite H. Qed.

Ltac py_run H := rewrite (bind_ok _ _ _ _ _ H); cbv beta iota.
Ltac py_fail H := rewrite (bind_err _ _ _ _ _ H); cbv beta iota.

Section Init.
Variable ARTIFACT_DIR : path.
Context {M : Type}.

(** The directory is there: it is emptied and gets the marker. *)
Lemma init_existing (self : M) (w : world) (m : gmap string node) :
  listing ARTIFACT_DIR w = Some m →
  ∃ w', _initialize_artifact_dir ARTIFACT_DIR self w = (inr tt, w')
      ∧ listing ARTIFACT_DIR w' = Some marker_only
      ∧ stdout w' = stdout w.
Proof.
  intros Hd.
  destruct (clear_all ARTIFACT_DIR w m Hd) as (w1 & Hrun & Hd1 & Hout1).
  destruct (touch_new ARTIFACT_DIR "__init__.py" w1 ∅ Hd1) as (w' & Ht & Hd' & Hout').
  { done. }
  exists w'. split; [|split; [by rewrite Hd', insert_empty|congruence]].
  unfold _initialize_artifact_dir.
  apply listing_stat in Hd. py_run (exists_true _ _ _ Hd).
  by py_run Hrun.
Qed.

(** The directory is missing and its parent is there: it is created and
    gets the marker. *)
Lemma init_missing (self : M) (w : world) (e : exn) (pm : gmap string node) :
  stat ARTIFACT_DIR (fs w) = inl e →
  listing (parent ARTIFACT_DIR) w = Some pm →
  ∃ w', _initialize_artifact_dir ARTIFACT_DIR self w = (inr tt, w')
      ∧ listing ARTIFACT_DIR w' = Some marker_only
      ∧ stdout w' = stdout w.
Proof.
  intros He Hpar.
  destruct (mkdir_new ARTIFACT_DIR w e pm He Hpar) as (w1 & Hrun & Hd1 & Hout1).
  destruct (touch_new ARTIFACT_DIR "__init__.py" w1 ∅ Hd1) as (w' & Ht & Hd' & Hout').
  { done. }
  exists w'. split; [|split; [by rewrite Hd', insert_empty|congruence]].
  unfold _initialize_artifact_dir.
  py_run (exists_false _ _ _ He). by py_run Hrun.
Qed.

(** Whenever the initialisation returns, the directory holds the marker and
    nothing else, and nothing was printed. *)
Lemma init_returns (self : M) (w w' : world) :
  _initialize_artifact_dir ARTIFACT_DIR self w = (inr tt, w') →
  listing ARTIFACT_DIR w' = Some marker_only ∧ stdout w' = stdout w.
Proof.
  intros Hrun.
  destruct (stat ARTIFACT_DIR (fs w)) as [e|[b|m]] eqn:Hs.
  - destruct (stat (parent ARTIFACT_DIR) (fs w)) as [e'|[b|pm]] eqn:Hp.
    + exfalso. revert Hrun. unfold _initialize_artifact_dir.
      py_run (exists_false _ _ _ Hs).
      unfold mkdir, create. py_unfold. by rewrite Hs, Hp.
    + exfalso. revert Hrun. unfold _initialize_artifact_dir.
      py_run (exists_false _ _ _ Hs).
      unfold mkdir, create. py_unfold. by rewrite Hs, Hp.
    + apply listing_stat in Hp.
      destruct (init_missing self w e pm Hs Hp) as (w2 & Hrun2 & ? & ?).
      rewrite Hrun in Hrun2. by inversion Hrun2; subst.
  - exfalso. revert Hrun. unfold _initialize_artifact_dir.
    py_run (exists_true _ _ _ Hs). unfold iterdir. py_unfold. by rewrite Hs.
  - apply listing_stat in Hs.
    destruct (init_existing self w m Hs) as (w2 & Hrun2 & ? & ?).
    rewrite Hrun in Hrun2. by inversion Hrun2; subst.
Qed.
End Init.


(** ** [write_bytes] *)

Lemma write_bytes_spec (d : path) (name : string) (data : list Byte.byte)
    (w : world) (m : gmap string node) :
  listing d w = Some m →
  match m !! name with
  | Some (Dir _) => write_bytes (d </> name) data w = (inl IsADirectoryError, w)
  | _ => ∃ w', write_bytes (d </> name) data w = (inr tt, w')
             ∧ listing d w' = Some (<[name := File data]> m)
             ∧ stdout w' = stdout w
  end.
Proof.
  intros Hd. apply listing_stat in Hd as Hs.
  pose proof (stat_child d name _ _ Hs) as Hc.
  unfold write_bytes.
  rewrite (bind_ok _ _ _ _ _ (eq_refl : get_fs w = (inr (fs w), w))).
  rewrite Hc.
  destruct (m !! name) as [[b|m1]|] eqn:Hn; [| done |].
  - eexists. split; [reflexivity|]. split; [|done].
    apply listing_stat. simpl. by apply stat_put.
  - eexists. split; [by eapply create_spec|]. split; [|done].
    apply listing_stat. simpl. by apply stat_put.
Qed.

Lemma write_bytes_frame (d : path) (name : string) (data : list Byte.byte)
    (w w' : world) r (m : gmap string node) :
  write_bytes (d </> name) data w = (r, w') →
  listing d w = Some m →
  ∃ m', listing d w' = Some m'
      ∧ (∀ k, k ≠ name → m' !! k = m !! k)
      ∧ (r = inr tt → m' !! name = Some (File data))
      ∧ stdout w' = stdout w.
Proof.
  intros Hrun Hd. pose proof (write_bytes_spec d name data w m Hd) as Hspec.
  destruct (m !! name) as [[b|m1]|] eqn:Hn.
  - destruct Hspec as (w2 & Hrun2 & Hd2 & Hout). rewrite Hrun in Hrun2.
    inversion Hrun2; subst. eexists. split; [done|].
    split; [|split; [|done]].
    + intros k Hk. by rewrite lookup_insert_ne.
    + intros _. apply lookup_insert_eq.
  - rewrite Hrun in Hspec. inversion Hspec; subst.
    exists m. split; [done|]. split; [done|]. split; done.
  - destruct Hspec as (w2 & Hrun2 & Hd2 & Hout). rewrite Hrun in Hrun2.
    inversion Hrun2; subst. eexists. split; [done|].
    split; [|split; [|done]].
    + intros k Hk. by rewrite lookup_insert_ne.
    + intros _. apply lookup_insert_eq.
Qed.


(** ** [save] and [load] *)

Section Orchestration.
Variable ARTIFACT_DIR : path.
Variable Model : ModelNamespace.
Context {api : Api} {M : Type} (cls : Variant api M).

Local Abbreviation name := (artifact_file_name Model cls).

(** [save] is its three steps in sequence; the first failure ends it. *)
Lemma save_steps (self : M) (w : world) :
  save ARTIFACT_DIR Model cls self w =
    match _initialize_artifact_dir ARTIFACT_DIR self w with
    | (inl e, w1) => (inl e, w1)
    | (inr _, w1) =>
        match save_artifact_file cls self (ARTIFACT_DIR </> name) w1 with
        | (inl e, w2) => (inl e, w2)
        | (inr _, w2) => print ("SAVED: " +:+ path_str (ARTIFACT_DIR </> name)) w2
        end
    end.
Proof. reflexivity. Qed.

Lemma save_returns_inv (self : M) (w w' : world) :
  save ARTIFACT_DIR Model cls self w = (inr tt, w') →
  ∃ w1 w2,
    _initialize_artifact_dir ARTIFACT_DIR self w = (inr tt, w1)
    ∧ save_artifact_file cls self (ARTIFACT_DIR </> name) w1 = (inr tt, w2)
    ∧ fs w' = fs w2
    ∧ stdout w' = stdout w2 ++ ["SAVED: " +:+ path_str (ARTIFACT_DIR </> name)].
Proof.
  rewrite save_steps.
  destruct (_initialize_artifact_dir _ _ _) as [[e|[]] w1]; [done|].
  destruct (save_artifact_file _ _ _ _) as [[e|[]] w2] eqn:Hw; [done|].
  intros H. inversion H; subst. by exists w1, w2.
Qed.

(** After a [save] that returned, the directory is the marker plus what
    the variant left at the artifact's name. *)
Lemma save_success_dir (self : M) (w w' : world) :
  self_contained cls → writes_artifact cls →
  save ARTIFACT_DIR Model cls self w = (inr tt, w') →
  ∃ art, listing ARTIFACT_DIR w' = Some (<[name := art]> marker_only).
Proof.
  intros Hsc Hwa Hsave.
  apply save_returns_inv in Hsave as (w1 & w2 & Hinit & Hwrite & Hfs & _).
  apply init_returns in Hinit as [Hd1 _].
  destruct (Hsc _ _ _ _ _ _ _ Hwrite Hd1) as (m' & Hd2 & Hframe).
  destruct (Hwa _ _ _ _ _ _ Hwrite Hd1) as (m'' & Hd2' & [art Hart]).
  rewrite Hd2 in Hd2'. injection Hd2' as <-.
  exists art. unfold listing in *. rewrite Hfs, Hd2. f_equal.
  apply map_eq. intros k. destruct (decide (k = name)) as [->|Hk].
  - by rewrite lookup_insert_eq.
  - rewrite lookup_insert_ne by done. by apply Hframe.
Qed.

(** [save] returns whenever the directory can be initialised and the
    variant's writer returns. *)
Lemma init_total (self : M) (w : world) :
  initializable ARTIFACT_DIR w →
  ∃ w1, _initialize_artifact_dir ARTIFACT_DIR self w = (inr tt, w1)
      ∧ listing ARTIFACT_DIR w1 = Some marker_only
      ∧ stdout w1 = stdout w.
Proof.
  unfold initializable.
  destruct (stat ARTIFACT_DIR (fs w)) as [e|[b|m]] eqn:Hs; [|done|].
  - intros [pm Hpm]. by eapply init_missing.
  - intros _. eapply init_existing. by apply listing_stat.
Qed.

(** [load] is its two steps and the confirmation; the first failure ends
    it before anything is printed. *)
Lemma load_steps (w : world) :
  load ARTIFACT_DIR Model cls w =
    match open_binary ARTIFACT_DIR "emo_classifier.artifact" name w with
    | (inl e, w1) => (inl e, w1)
    | (inr fp, w1) =>
        match load_artifact_file cls fp w1 with
        | (inl e, w2) => (inl e, w2)
        | (inr model, w2) =>
            (inr model,
             {| fs := fs w2;
                stdout := stdout w2 ++
                  ["LOADED: " +:+ type_name cls model +:+ " instance"] |})
        end
    end.
Proof.
  unfold load, bind.
  destruct (open_binary _ _ _ w) as [[e|fp] w1]; [done|].
  by destruct (load_artifact_file cls fp w1) as [[e|model] w2].
Qed.

Lemma open_binary_resource (w : world) (data : BinaryIO) :
  resource_at ARTIFACT_DIR name w data →
  open_binary ARTIFACT_DIR "emo_classifier.artifact" name w = (inr data, w).
Proof.
  intros (m & marker & Hd & Hm & Hn). apply listing_stat in Hd.
  unfold open_binary, find_package. py_unfold. by rewrite Hd, Hm, Hn.
Qed.

Lemma open_binary_missing (w : world) (e0 : exn) :
  stat (ARTIFACT_DIR </> name) (fs w) = inl e0 →
  ∃ e, open_binary ARTIFACT_DIR "emo_classifier.artifact" name w = (inl e, w)
     ∧ artifact_not_found e = true.
Proof.
  intros Hn. unfold open_binary, find_package. py_unfold.
  destruct (stat ARTIFACT_DIR (fs w)) as [e|[b|m]] eqn:Hd.
  - by exists ModuleNotFoundError.
  - by exists ModuleNotFoundError.
  - rewrite (stat_child _ name _ _ Hd) in Hn.
    destruct (m !! name) as [c|] eqn:Hc; [done|].
    exists FileNotFoundError. split; [|done].
    by destruct (m !! "__init__.py") as [[?|?]|].
Qed.






(** C10.  [save] is not atomic: when [save_artifact_file] raises after the
    directory was initialised, [save] raises the same exception, and the
    directory is left with the marker file and whatever the variant wrote
    at the artifact's name; every other entry it had before is gone. *)
Theorem save_not_atomic (self : M) (w w1 w2 : world) (e : exn) :
  self_contained cls →
  _initialize_artifact_dir ARTIFACT_DIR self w = (inr tt, w1) →
  save_artifact_file cls self (ARTIFACT_DIR </> name) w1 = (inl e, w2) →
  save ARTIFACT_DIR Model cls self w = (inl e, w2)
  ∧ ∃ m', listing ARTIFACT_DIR w2 = Some m'
        ∧ (∀ k, k ≠ name → m' !! k = marker_only !! k)
        ∧ (∀ k, k ≠ name → k ≠ "__init__.py" → m' !! k = None).
Proof.
  intros Hsc Hinit Hwrite. split.
  - by rewrite save_steps, Hinit, Hwrite.
  - apply init_returns in Hinit as [Hd1 _].
    destruct (Hsc _ _ _ _ _ _ _ Hwrite Hd1) as (m' & Hd2 & Hframe).
    exists m'. split; [done|]. split; [done|].
    intros k Hk Hk'. rewrite Hframe by done.
    by apply lookup_singleton_ne.
Qed.

End Orchestration.


(** ** Class attributes *)



(** ** Thresholding *)

Lemma exceeds_antitone (strict : bool) (p t t' : Q) :
  (t <= t')%Q → exceeds strict p t' = true → exceeds strict p t = true.
Proof.
  intros Hle. unfold exceeds. destruct strict.
  - rewrite !negb_true_iff. intros H.
    destruct (Qle_bool p t) eqn:Hpt; [|done].
    apply Qle_bool_iff in Hpt.
    assert (Qle_bool p t' = true) as Hc; [|congruence].
    apply Qle_bool_iff. by eapply Qle_trans.
  - rewrite !Qle_bool_iff. intros H. by eapply Qle_trans.
Qed.

Lemma asserted_labels_In (strict : bool) (labels : list string)
    (thr : gmap string Q) (row : list Q) (l : string) :
  In l (asserted_labels strict labels thr row) ↔
  ∃ p, In (l, p) (combine labels row) ∧ is_asserted strict thr (l, p) = true.
Proof.
  unfold asserted_labels. rewrite in_map_iff. split.
  - intros ([l' p] & <- & Hin). apply filter_In in Hin. eauto.
  - intros (p & Hin & Ha). exists (l, p). split; [done|].
    by apply filter_In.
Qed.

(** C8.  Threshold monotonicity: for a fixed row of probabilities, raising
    the threshold of a label can remove the label from the asserted
    labels but cannot add it, and leaves every other label as it was. *)
Theorem threshold_antitone (strict : bool) (labels : list string)
    (thr : gmap string Q) (row : list Q) (l : string) (t t' : Q) :
  thr !! l = Some t → (t <= t')%Q →
  (In l (asserted_labels strict labels (<[l := t']> thr) row) →
   In l (asserted_labels strict labels thr row))
  ∧ ∀ l', l' ≠ l →
      (In l' (asserted_labels strict labels (<[l := t']> thr) row) ↔
       In l' (asserted_labels strict labels thr row)).
Proof.
  intros Ht Hle. split.
  - rewrite !asserted_labels_In. intros (p & Hin & Ha). exists p.
    split; [done|]. unfold is_asserted in *. simpl in *.
    rewrite lookup_insert_eq in Ha. rewrite Ht.
    by eapply exceeds_antitone.
  - intros l' Hne. rewrite !asserted_labels_In.
    unfold is_asserted. simpl.
    by setoid_rewrite (lookup_insert_ne thr l l' t' (not_eq_sym Hne)).
Qed.

(** ** Abstract methods *)

Lemma new_abstract {api : Api} {M : Type} (cls : Variant api M)
    (n : abstract_name) (init : Py M) (w : world) :
  overrides cls n = false → new cls init w = (inl TypeError, w).
Proof.
  intros Hn. unfold new.
  assert (n ∈ __abstractmethods__ cls) as Hin.
  { unfold __abstractmethods__. apply list_elem_of_filter. split; [done|].
    unfold Model_abstractmethods. destruct n; set_solver. }
  destruct (__abstractmethods__ cls); [|done].
  by apply elem_of_nil in Hin.
Qed.



(** ** Facts about the sample variants *)

Module SampleFacts.
Import Sample.

Lemma Pickled_self_contained (n : option string) : self_contained (Pickled n).
Proof.
  intros self d name w w' r m Hrun Hd.
  destruct (write_bytes_frame d name (dumps self) w w' r m Hrun Hd)
    as (m' & ? & ? & _).
  eauto.
Qed.

Lemma Pickled_writes_artifact (n : option string) : writes_artifact (Pickled n).
Proof.
  intros self d name w w' m Hrun Hd.
  destruct (write_bytes_frame d name (dumps self) w w' _ m Hrun Hd)
    as (m' & ? & _ & Hn & _).
  exists m'. split; [done|]. rewrite Hn by done. eauto.
Qed.

Lemma Pickled_exact_inverse (n : option string) :
  exact_inverse (Pickled n) dumps.
Proof. split; [done|]. by intros [c ws] w. Qed.

Lemma Failing_self_contained : self_contained Failing.
Proof.
  intros self d name w w' r m Hrun Hd.
  change (save_artifact_file Failing self (d </> name))
    with (write_bytes (d </> name) (take 1 (dumps self)) >>
          (raise (UserError "OSError") : Py unit)) in Hrun.
  apply bind_inv in Hrun as [(e & Hw & _)|([] & w1 & Hw & Hraise)].
  - destruct (write_bytes_frame d name _ w w' _ m Hw Hd) as (m' & ? & ? & _).
    eauto.
  - inversion Hraise; subst.
    destruct (write_bytes_frame d name _ w w' _ m Hw Hd) as (m' & ? & ? & _).
    eauto.
Qed.

End SampleFacts.

(** ** Witnesses and counterexamples *)

Module Witness.
Import Sample SampleFacts.




Lemma saved_resource :
  resource_at ARTIFACT_DIR "model.model" saved (dumps m0).
Proof.
  exists (<["model.model" := File (dumps m0)]> marker_only), [].
  by vm_compute.
Qed.







Example section8_scenario :
  asserted_labels true ["joy"; "anger"] even_thresholds row = ["joy"].
Proof. reflexivity. Qed.

Lemma threshold_antitone_witness :
  even_thresholds !! "joy" = Some (1 # 2)%Q
  ∧ (1 # 2 <= 19 # 20)%Q
  ∧ (In "joy" (asserted_labels true ["joy"; "anger"]
                 (<["joy" := (19 # 20)%Q]> even_thresholds) row) →
     In "joy" (asserted_labels true ["joy"; "anger"] even_thresholds row))
  ∧ ∀ l', l' ≠ "joy" →
      (In l' (asserted_labels true ["joy"; "anger"]
                (<["joy" := (19 # 20)%Q]> even_thresholds) row) ↔
       In l' (asserted_labels true ["joy"; "anger"] even_thresholds row)).
Proof.
  split; [by vm_compute|]. split; [by vm_compute|].
  apply (threshold_antitone true ["joy"; "anger"] even_thresholds row "joy"
           (1 # 2) (19 # 20)).
  - by vm_compute.
  - by vm_compute.
Defined.



Lemma save_not_atomic_witness :
  self_contained Failing
  ∧ _initialize_artifact_dir ARTIFACT_DIR m0 cluttered = (inr tt, initialised)
  ∧ save_artifact_file Failing m0 (ARTIFACT_DIR </> "model.model") initialised
    = (inl (UserError "OSError"), half_saved)
  ∧ save ARTIFACT_DIR Model Failing m0 cluttered
    = (inl (UserError "OSError"), half_saved)
  ∧ ∃ m', listing ARTIFACT_DIR half_saved = Some m'
        ∧ (∀ k, k ≠ "model.model" → m' !! k = marker_only !! k)
        ∧ (∀ k, k ≠ "model.model" → k ≠ "__init__.py" → m' !! k = None).
Proof.
  split; [apply Failing_self_contained|].
  split; [by vm_compute|]. split; [by vm_compute|].
  apply (save_not_atomic ARTIFACT_DIR Model Failing m0 cluttered initialised
           half_saved (UserError "OSError")).
  - apply Failing_self_contained.
  - by vm_compute.
  - by vm_compute.
Defined.

(** The directory after the failed [save]: the notes and the cache are
    gone, the marker and one byte of the artifact are there. *)
Example half_saved_listing :
  listing ARTIFACT_DIR cluttered
  = Some (<["notes.txt" := File [Byte.x68]]>
          {[ "cache" := Dir {[ "a" := File [] ]} ]})
  ∧ listing ARTIFACT_DIR half_saved
  = Some (<["model.model" := File [Byte.x80]]> marker_only).
Proof. split; by vm_compute. Qed.

End Witness.

(** * Further properties of the directory life cycle *)

(** ** Steps that stay within a relation *)

Section StaysIn.
Variable R : world → world → Prop.
Hypothesis R_refl : ∀ w, R w w.
Hypothesis R_trans : ∀ w1 w2 w3, R w1 w2 → R w2 w3 → R w1 w3.

Lemma stays_ret {A} (a : A) : stays_in R (ret a).
Proof. intros w r w' [= <- <-]. apply R_refl. Qed.

Lemma stays_raise {A} (e : exn) : stays_in R (raise e : Py A).
Proof. intros w r w' [= <- <-]. apply R_refl. Qed.

Lemma stays_get_fs : stays_in R get_fs.
Proof. intros w r w' [= <- <-]. apply R_refl. Qed.

Lemma stays_bind {A B} (c : Py A) (k : A → Py B) :
  stays_in R c → (∀ a, stays_in R (k a)) → stays_in R (bind c k).
Proof.
  intros Hc Hk w r w' Hrun.
  apply bind_inv in Hrun as [(e & Hrun & _)|(a & w1 & Hrun & Hrun')].
  - by eapply Hc.
  - eapply R_trans; [by eapply Hc|by eapply Hk].
Qed.

Lemma stays_for_each {A} (xs : list A) (body : A → Py unit) :
  (∀ x, x ∈ xs → stays_in R (body x)) → stays_in R (for_each xs body).
Proof.
  induction xs as [|x xs IH]; intros Hbody; simpl.
  - apply stays_ret.
  - apply stays_bind.
    + apply Hbody. left.
    + intros _. apply IH. intros y Hy. apply Hbody. by right.
Qed.
End StaysIn.

(** ** What [put] leaves alone *)

Lemma stat_error (p : path) (n : node) (e : exn) :
  stat p n = inl e → e = FileNotFoundError ∨ e = NotADirectoryError.
Proof.
  revert n. induction p as [|s p IH]; intros n; simpl; [done|].
  destruct n as [b|m]; [intros [= <-]; by right|].
  destruct (m !! s) as [c|]; [apply IH|intros [= <-]; by left].
Qed.

Lemma put_outside (p q : path) (v : option node) (n : node) :
  ¬ p `prefix_of` q → ¬ q `prefix_of` p →
  stat q (put p v n) = stat q n.
Proof.
  revert q n. induction p as [|a p IH]; intros q n Hpq Hqp.
  - exfalso. apply Hpq. apply prefix_nil.
  - destruct q as [|b q]; [exfalso; apply Hqp, prefix_nil|].
    destruct n as [data|m]; [by destruct p|].
    destruct (decide (a = b)) as [<-|Hab].
    + assert (¬ p `prefix_of` q) as Hpq' by (intros H; by apply Hpq, prefix_cons).
      assert (¬ q `prefix_of` p) as Hqp' by (intros H; by apply Hqp, prefix_cons).
      destruct p as [|a' p].
      { exfalso. apply Hpq', prefix_nil. }
      change (stat (a :: q) (Dir (alter (put (a' :: p) v) a m))
              = stat (a :: q) (Dir m)).
      simpl stat. rewrite lookup_alter_eq.
      destruct (m !! a) as [c|]; [|done]. simpl. by apply IH.
    + destruct p as [|a' p].
      * simpl. by rewrite lookup_partial_alter_ne.
      * change (stat (b :: q) (Dir (alter (put (a' :: p) v) a m))
                = stat (b :: q) (Dir m)).
        simpl stat. by rewrite lookup_alter_ne.
Qed.

Lemma outside_inside (d p q : path) :
  outside d q → d `prefix_of` p →
  ¬ p `prefix_of` q ∧ ¬ q `prefix_of` p.
Proof.
  intros [Hdq Hqd] Hdp. split.
  - intros Hpq. apply Hdq. by etrans.
  - intros Hqp. destruct (prefix_weak_total _ _ _ Hdp Hqp); done.
Qed.

Lemma untouched_refl (q : path) (w : world) : untouched q w w.
Proof. done. Qed.

Lemma untouched_trans (q : path) (w1 w2 w3 : world) :
  untouched q w1 w2 → untouched q w2 w3 → untouched q w1 w3.
Proof. intros [? ?] [? ?]. split; congruence. Qed.

Section Untouched.
Variables d p q : path.
Hypothesis Hout : outside d q.
Hypothesis Hin : d `prefix_of` p.

Lemma put_untouched (v : option node) (w : world) :
  untouched q w {| fs := put p v (fs w); stdout := stdout w |}.
Proof.
  split; [|done]. simpl.
  destruct (outside_inside d p q Hout Hin). by apply put_outside.
Qed.

Lemma unlink_untouched : stays_in (untouched q) (unlink p).
Proof.
  intros w r w'. unfold unlink. py_unfold.
  destruct (stat p (fs w)) as [e|[b|m]]; intros [= <- <-];
    try apply untouched_refl. apply put_untouched.
Qed.

Lemma rmtree_untouched : stays_in (untouched q) (rmtree p).
Proof.
  intros w r w'. unfold rmtree. py_unfold.
  destruct (stat p (fs w)) as [e|[b|m]]; intros [= <- <-];
    try apply untouched_refl. apply put_untouched.
Qed.

Lemma create_untouched (v : node) : stays_in (untouched q) (create p v).
Proof.
  intros w r w'. unfold create. py_unfold.
  destruct (stat (parent p) (fs w)) as [e|[b|m]]; intros [= <- <-];
    try apply untouched_refl. apply put_untouched.
Qed.

Lemma mkdir_untouched : stays_in (untouched q) (mkdir p).
Proof.
  intros w r w' Hrun. unfold mkdir in Hrun.
  rewrite (bind_ok _ _ _ _ _ (eq_refl : get_fs w = (inr (fs w), w))) in Hrun.
  destruct (stat p (fs w)).
  - by eapply create_untouched.
  - injection Hrun as <- <-. apply untouched_refl.
Qed.

Lemma touch_untouched : stays_in (untouched q) (touch p).
Proof.
  intros w r w' Hrun. unfold touch in Hrun.
  rewrite (bind_ok _ _ _ _ _ (eq_refl : get_fs w = (inr (fs w), w))) in Hrun.
  destruct (stat p (fs w)).
  - by eapply create_untouched.
  - injection Hrun as <- <-. apply untouched_refl.
Qed.
End Untouched.

Lemma query_untouched (q : path) {A} (f : node → A) :
  stays_in (untouched q) (let* n := get_fs in ret (f n)).
Proof. intros w r w' [= <- <-]. apply untouched_refl. Qed.

Lemma iterdir_untouched (q p : path) : stays_in (untouched q) (iterdir p).
Proof.
  intros w r w'. unfold iterdir. py_unfold.
  destruct (stat p (fs w)) as [e|[b|m]]; intros [= <- <-];
    apply untouched_refl.
Qed.

Lemma iterdir_inside (p : path) (w w' : world) (files : list path) :
  iterdir p w = (inr files, w') → ∀ f, f ∈ files → p `prefix_of` f.
Proof.
  unfold iterdir. py_unfold.
  destruct (stat p (fs w)) as [e|[b|m]]; intros [= <- <-] f Hf.
  apply list_elem_of_fmap in Hf as [kv [-> _]]. by eexists.
Qed.

Section InitFrame.
Variable ARTIFACT_DIR : path.
Context {M : Type}.

Lemma init_untouched (self : M) (q : path) :
  outside ARTIFACT_DIR q →
  stays_in (untouched q) (_initialize_artifact_dir ARTIFACT_DIR self).
Proof.
  intros Hout. unfold _initialize_artifact_dir.
  apply stays_bind; try apply untouched_refl; try apply untouched_trans.
  { unfold exists_. apply (query_untouched q). }
  intros e. apply stays_bind; try apply untouched_refl; try apply untouched_trans.
  - destruct e.
    + intros w r w' Hrun.
      apply bind_inv in Hrun as [(e & Hrun & _)|(files & w1 & Hrun & Hloop)].
      { by eapply iterdir_untouched. }
      eapply untouched_trans; [by eapply iterdir_untouched|].
      revert Hloop. apply stays_for_each;
        try apply untouched_refl; try apply untouched_trans.
      intros f Hf. pose proof (iterdir_inside _ _ _ _ Hrun f Hf) as Hin.
      apply stays_bind; try apply untouched_refl; try apply untouched_trans.
      { unfold is_dir. apply (query_untouched q). }
      intros [|].
      * by eapply rmtree_untouched.
      * by eapply unlink_untouched.
    + eapply mkdir_untouched; [done|]. reflexivity.
  - intros _. eapply touch_untouched; [done|]. by eexists.
Qed.
End InitFrame.

(** ** Writing twice, writing what is there *)

Lemma put_put (p : path) (u v : option node) (n : node) :
  put p v (put p u n) = put p v n.
Proof.
  revert n. induction p as [|a p IH]; intros n; [done|].
  destruct n as [data|m]; [by destruct p|].
  destruct p as [|a' p].
  - simpl. by rewrite partial_alter_partial_alter_eq.
  - change (Dir (alter (put (a' :: p) v) a (alter (put (a' :: p) u) a m))
            = Dir (alter (put (a' :: p) v) a m)).
    rewrite alter_alter_eq. f_equal. apply alter_ext. intros c _. apply IH.
Qed.

Lemma put_same (p : path) (c : node) (n : node) :
  stat p n = inr c → put p (Some c) n = n.
Proof.
  revert n. induction p as [|a p IH]; intros n Hs; [done|].
  destruct n as [data|m]; [done|]. simpl in Hs.
  destruct (m !! a) as [c0|] eqn:Ha; [|done].
  destruct p as [|a' p].
  - simpl in Hs. injection Hs as ->. simpl. f_equal.
    apply map_eq. intros j. rewrite lookup_partial_alter.
    case_decide; by subst.
  - change (Dir (alter (put (a' :: p) (Some c)) a m) = Dir m).
    f_equal. apply alter_id. intros x Hx. rewrite Ha in Hx.
    injection Hx as <-. by apply IH.
Qed.

Lemma stat_child_err (d : path) (s : string) (n : node) (e : exn) :
  stat d n = inl e → stat (d </> s) n = inl e.
Proof.
  revert n. induction d as [|a d IH]; intros n; simpl; [done|].
  destruct n as [b|m]; [done|]. destruct (m !! a); [apply IH|done].
Qed.

Section InitOutcome.
Variable ARTIFACT_DIR : path.
Context {M : Type}.

Lemma init_file (self : M) (w : world) (b : list Byte.byte) :
  stat ARTIFACT_DIR (fs w) = inr (File b) →
  _initialize_artifact_dir ARTIFACT_DIR self w = (inl NotADirectoryError, w).
Proof.
  intros Hs. unfold _initialize_artifact_dir.
  py_run (exists_true _ _ _ Hs). unfold iterdir. py_unfold. by rewrite Hs.
Qed.

Lemma init_parent_file (self : M) (w : world) (e : exn) (b : list Byte.byte) :
  stat ARTIFACT_DIR (fs w) = inl e →
  stat (parent ARTIFACT_DIR) (fs w) = inr (File b) →
  _initialize_artifact_dir ARTIFACT_DIR self w = (inl NotADirectoryError, w).
Proof.
  intros Hs Hp. unfold _initialize_artifact_dir.
  py_run (exists_false _ _ _ Hs). unfold mkdir, create. py_unfold.
  by rewrite Hs, Hp.
Qed.

Lemma init_parent_missing (self : M) (w : world) (e e' : exn) :
  stat ARTIFACT_DIR (fs w) = inl e →
  stat (parent ARTIFACT_DIR) (fs w) = inl e' →
  _initialize_artifact_dir ARTIFACT_DIR self w = (inl e', w).
Proof.
  intros Hs Hp. unfold _initialize_artifact_dir.
  py_run (exists_false _ _ _ Hs). unfold mkdir, create. py_unfold.
  by rewrite Hs, Hp.
Qed.

(** X2.  When [ARTIFACT_DIR] is a regular file, [exists()] holds and
    [iterdir()] raises: the initialisation fails with
    [NotADirectoryError] and changes nothing. *)
Theorem init_rejects_file (self : M) (w : world) (b : list Byte.byte) :
  stat ARTIFACT_DIR (fs w) = inr (File b) →
  _initialize_artifact_dir ARTIFACT_DIR self w = (inl NotADirectoryError, w).
Proof.
  intros Hs. unfold _initialize_artifact_dir.
  assert (exists_ ARTIFACT_DIR w = (inr true, w)) as Hex
    by by eapply exists_true.
  assert (iterdir ARTIFACT_DIR w = (inl NotADirectoryError, w)) as Hit.
  { unfold iterdir. py_unfold. by rewrite Hs. }
  py_run Hex. by rewrite (bind_err _ _ _ _ _ (bind_err _ _ _ _ _ Hit)).
Qed.

(** X3.  [mkdir()] is called without [parents=True]: when the directory
    that should hold [ARTIFACT_DIR] cannot be reached, the initialisation
    fails with the error of that lookup and creates nothing. *)
Theorem init_makes_no_parents (self : M) (w : world) (e' : exn) :
  stat (parent ARTIFACT_DIR) (fs w) = inl e' →
  _initialize_artifact_dir ARTIFACT_DIR self w = (inl e', w).
Proof.
  intros Hp.
  destruct (decide (ARTIFACT_DIR = [])) as [Hnil|Hne].
  { by rewrite Hnil in Hp. }
  destruct (path_split ARTIFACT_DIR Hne) as (d & s & Heq).
  assert (stat ARTIFACT_DIR (fs w) = inl e') as Hs.
  { rewrite Heq in Hp |- *. rewrite parent_joinpath in Hp.
    by apply stat_child_err. }
  by eapply init_parent_missing.
Qed.

Lemma init_cases (self : M) (w : world) :
  match _initialize_artifact_dir ARTIFACT_DIR self w with
  | (inr _, w') =>
      initializable ARTIFACT_DIR w
      ∧ listing ARTIFACT_DIR w' = Some marker_only
      ∧ stdout w' = stdout w
  | (inl e, w') =>
      ¬ initializable ARTIFACT_DIR w
      ∧ w' = w
      ∧ (e = FileNotFoundError ∨ e = NotADirectoryError)
  end.
Proof.
  unfold initializable.
  destruct (stat ARTIFACT_DIR (fs w)) as [e|[b|m]] eqn:Hs.
  - destruct (stat (parent ARTIFACT_DIR) (fs w)) as [e'|[b|pm]] eqn:Hp.
    + rewrite (init_parent_missing self w e e' Hs Hp).
      split; [|split; [done|by eapply stat_error]].
      unfold listing. rewrite Hp. by intros [? ?].
    + rewrite (init_parent_file self w e b Hs Hp).
      split; [|split; [done|by right]].
      unfold listing. rewrite Hp. by intros [? ?].
    + assert (listing (parent ARTIFACT_DIR) w = Some pm) as Hl
        by by apply listing_stat.
      destruct (init_missing ARTIFACT_DIR self w e pm Hs Hl)
        as (w' & -> & ? & ?).
      by rewrite Hl.
  - rewrite (init_file self w b Hs). split; [tauto|]. split; [done|by right].
  - assert (listing ARTIFACT_DIR w = Some m) as Hl by by apply listing_stat.
    by destruct (init_existing ARTIFACT_DIR self w m Hl) as (w' & -> & ? & ?).
Qed.


(** X4.  Whether it returns or raises, the initialisation changes nothing
    at a path that is neither inside [ARTIFACT_DIR] nor an ancestor of
    it. *)
Theorem init_leaves_outside (self : M) (q : path) (w w' : world) r :
  outside ARTIFACT_DIR q →
  _initialize_artifact_dir ARTIFACT_DIR self w = (r, w') →
  stat q (fs w') = stat q (fs w).
Proof.
  intros Hout Hrun.
  by destruct (init_untouched ARTIFACT_DIR self q Hout w r w' Hrun).
Qed.

(** X5.  Run again on the world it produced, the initialisation returns and
    gives back that very world: the marker is removed and recreated
    empty. *)
Theorem init_idempotent (self : M) (w w1 : world) :
  _initialize_artifact_dir ARTIFACT_DIR self w = (inr tt, w1) →
  _initialize_artifact_dir ARTIFACT_DIR self w1 = (inr tt, w1).
Proof.
  intros Hrun. apply init_returns in Hrun as [Hd _].
  apply listing_stat in Hd as Hs.
  set (f := ARTIFACT_DIR </> "__init__.py").
  assert (stat f (fs w1) = inr (File [])) as Hf.
  { unfold f. by rewrite (stat_child _ "__init__.py" _ _ Hs). }
  set (w2 := {| fs := put f None (fs w1); stdout := stdout w1 |}).
  assert (stat f (fs w2) = inl FileNotFoundError) as Hf2.
  { unfold f, w2. apply (stat_put_child _ "__init__.py" None _ _ Hs). }
  unfold _initialize_artifact_dir.
  py_run (exists_true _ _ _ Hs).
  assert (iterdir ARTIFACT_DIR w1 = (inr [f], w1)) as Hiter.
  { unfold iterdir. py_unfold. rewrite Hs. unfold marker_only.
    by rewrite map_to_list_singleton. }
  assert ((let* files := iterdir ARTIFACT_DIR in
           for_each files (λ file,
             let* isd := is_dir file in
             if isd : bool then rmtree file else unlink file)) w1
          = (inr tt, w2)) as Hclear.
  { py_run Hiter. simpl. unfold is_dir, unlink. py_unfold.
    rewrite Hf. simpl. by rewrite Hf. }
  py_run Hclear.
  unfold touch.
  rewrite (bind_ok _ _ _ _ _ (eq_refl : get_fs w2 = (inr (fs w2), w2))).
  fold f. rewrite Hf2. unfold create.
  rewrite (bind_ok _ _ _ _ _ (eq_refl : get_fs w2 = (inr (fs w2), w2))).
  assert (stat (parent f) (fs w2)
          = inr (Dir (partial_alter (λ _, None) "__init__.py" marker_only)))
    as Hp.
  { unfold f. rewrite parent_joinpath. by apply stat_put. }
  rewrite Hp. unfold set_fs, w2. simpl.
  rewrite put_put, (put_same _ _ _ Hf).
  by destruct w1.
Qed.
End InitOutcome.

(** ** Further properties of [save], [load] and instantiation *)

Section SaveLoad.
Variable ARTIFACT_DIR : path.
Variable Model : ModelNamespace.
Context {api : Api} {M M2 : Type} (cls : Variant api M) (cls2 : Variant api M2).

Local Abbreviation name := (artifact_file_name Model cls).
Local Abbreviation name2 := (artifact_file_name Model cls2).

(** X6.  When the directory cannot be initialised, [save] fails with the
    error of the initialisation in an unchanged world: whatever the
    variant, [save_artifact_file] is not run and nothing is printed. *)
Theorem save_fails_before_writing (self : M) (w : world) :
  ¬ initializable ARTIFACT_DIR w →
  ∃ e, save ARTIFACT_DIR Model cls self w = (inl e, w)
     ∧ (e = FileNotFoundError ∨ e = NotADirectoryError).
Proof.
  intros Hno. rewrite save_steps.
  pose proof (init_cases ARTIFACT_DIR self w) as Hinit.
  destruct (_initialize_artifact_dir ARTIFACT_DIR self w) as [[e|[]] w1].
  - destruct Hinit as (_ & -> & He). eauto.
  - by destruct Hinit as (? & _).
Qed.

(** X7.  With a writer that prints nothing, [save] adds to the output the
    one line ["SAVED: "] followed by the artifact's absolute path when it
    returns, and nothing when it raises. *)
Theorem save_output (self : M) (w w' : world) r :
  silent_writer cls →
  save ARTIFACT_DIR Model cls self w = (r, w') →
  stdout w' = stdout w ++
    match r with
    | inr _ => ["SAVED: " +:+ path_str (ARTIFACT_DIR </> name)]
    | inl _ => []
    end.
Proof.
  intros Hsilent. rewrite save_steps.
  pose proof (init_cases ARTIFACT_DIR self w) as Hinit.
  destruct (_initialize_artifact_dir ARTIFACT_DIR self w) as [[e|[]] w1].
  - destruct Hinit as (_ & -> & _). intros [= <- <-]. by rewrite app_nil_r.
  - destruct Hinit as (_ & _ & Hout1).
    destruct (save_artifact_file cls self (ARTIFACT_DIR </> name) w1)
      as [[e|[]] w2] eqn:Hw; apply Hsilent in Hw; intros [= <- <-]; simpl.
    + rewrite app_nil_r. congruence.
    + congruence.
Qed.

Lemma saved_resource_at (self : M) (w w1 : world) (m : gmap string node)
    (data : BinaryIO) :
  self_contained cls →
  save ARTIFACT_DIR Model cls self w = (inr tt, w1) →
  listing ARTIFACT_DIR w1 = Some m →
  m !! name = Some (File data) →
  resource_at ARTIFACT_DIR name w1 data.
Proof.
  intros Hsc Hsave Hd Hn.
  apply save_returns_inv in Hsave as (w0 & w2 & Hinit & Hwrite & Hfs & _).
  apply init_returns in Hinit as [Hd0 _].
  destruct (Hsc _ _ _ _ _ _ _ Hwrite Hd0) as (m' & Hd2 & Hframe).
  assert (m' = m) as ->.
  { unfold listing in *. rewrite Hfs, Hd2 in Hd. by injection Hd. }
  destruct (decide (name = "__init__.py")) as [Heq|Hne].
  - exists m, data. split; [done|]. split; [by rewrite <- Heq|done].
  - exists m, []. split; [done|]. split; [|done].
    rewrite Hframe by done. apply lookup_singleton_eq.
Qed.


End SaveLoad.


(** ** Witnesses for the further properties *)

Lemma write_bytes_silent (p : path) (data : list Byte.byte) (w w' : world) r :
  write_bytes p data w = (r, w') → stdout w' = stdout w.
Proof.
  unfold write_bytes, create. py_unfold.
  destruct (stat p (fs w)) as [e|[b|m]].
  - by destruct (stat (parent p) (fs w)) as [e'|[b|m]]; intros [= <- <-].
  - by intros [= <- <-].
  - by intros [= <- <-].
Qed.

Module FurtherWitness.
Import Sample SampleFacts Places.

Lemma Pickled_silent (n : option string) : silent_writer (Pickled n).
Proof. intros self p w w' r. apply write_bytes_silent. Qed.

Lemma api_py_outside : outside ARTIFACT_DIR api_py.
Proof. split; intros [k Hk]; discriminate Hk. Qed.


Lemma init_rejects_file_witness :
  stat ARTIFACT_DIR (fs blocked) = inr (File [Byte.x2a])
  ∧ _initialize_artifact_dir ARTIFACT_DIR m0 blocked
    = (inl NotADirectoryError, blocked).
Proof.
  split; [reflexivity|].
  apply (init_rejects_file ARTIFACT_DIR m0 blocked [Byte.x2a]). reflexivity.
Defined.

Lemma init_makes_no_parents_witness :
  stat (parent ARTIFACT_DIR) (fs orphan) = inl FileNotFoundError
  ∧ _initialize_artifact_dir ARTIFACT_DIR m0 orphan
    = (inl FileNotFoundError, orphan).
Proof.
  split; [reflexivity|].
  apply (init_makes_no_parents ARTIFACT_DIR m0 orphan FileNotFoundError).
  reflexivity.
Defined.

Lemma init_leaves_outside_witness :
  outside ARTIFACT_DIR api_py
  ∧ _initialize_artifact_dir ARTIFACT_DIR m0 project = (inr tt, cleared)
  ∧ stat api_py (fs cleared) = stat api_py (fs project).
Proof.
  split; [apply api_py_outside|].
  split; [vm_compute; reflexivity|].
  apply (init_leaves_outside ARTIFACT_DIR m0 api_py project cleared (inr tt)).
  - apply api_py_outside.
  - vm_compute; reflexivity.
Defined.

Lemma init_idempotent_witness :
  _initialize_artifact_dir ARTIFACT_DIR m0 cluttered = (inr tt, initialised)
  ∧ _initialize_artifact_dir ARTIFACT_DIR m0 initialised
    = (inr tt, initialised).
Proof.
  split; [vm_compute; reflexivity|].
  apply (init_idempotent ARTIFACT_DIR m0 cluttered initialised).
  vm_compute; reflexivity.
Defined.

Lemma blocked_not_initializable : ¬ initializable ARTIFACT_DIR blocked.
Proof. intros H. exact H. Qed.

Lemma save_fails_before_writing_witness :
  ¬ initializable ARTIFACT_DIR blocked
  ∧ ∃ e, save ARTIFACT_DIR Model Failing m0 blocked = (inl e, blocked)
       ∧ (e = FileNotFoundError ∨ e = NotADirectoryError).
Proof.
  split; [apply blocked_not_initializable|].
  apply (save_fails_before_writing ARTIFACT_DIR Model Failing m0 blocked).
  apply blocked_not_initializable.
Defined.

Lemma save_output_witness :
  silent_writer (Pickled None)
  ∧ save ARTIFACT_DIR Model (Pickled None) m0 project
    = (inr tt, (save ARTIFACT_DIR Model (Pickled None) m0 project).2)
  ∧ stdout (save ARTIFACT_DIR Model (Pickled None) m0 project).2
    = ["training done"] ++ ["SAVED: /emo_classifier/artifact/model.model"].
Proof.
  split; [apply Pickled_silent|].
  split; [vm_compute; reflexivity|].
  apply (save_output ARTIFACT_DIR Model (Pickled None) m0 project _ (inr tt)).
  - apply Pickled_silent.
  - vm_compute; reflexivity.
Defined.

Lemma saved_listing :
  listing ARTIFACT_DIR saved
  = Some (<["model.model" := File (dumps m0)]> marker_only).
Proof. vm_compute; reflexivity. Qed.



Lemma Pickled_overrides (n : abstract_name) : overrides (Pickled None) n = true.
Proof. by destruct n. Qed.


End FurtherWitness.
